(** * MetalRetriever (langchain/retrievers/metal.py)

    A shallow embedding of the retriever that adapts the Metal search client
    to the retriever interface, with the properties of its contract.

    The Python code is embedded as computations in a state-and-exception
    monad.  The state holds the store of mutable objects (dictionaries and the
    retriever instance, so that aliasing between the caller's parameter
    dictionary and the retriever's attribute is visible), the state of the
    outside world the search client acts on, and the log of the calls made on
    the client. *)

From stdpp Require Import gmap strings list fin_maps pretty.

Open Scope string_scope.
Open Scope list_scope.

#[local] Set Warnings "-register-all".

(** ** Python values *)

(** The values a search response is made of.  A float is kept as the decimal
    literal [m * 10^e]; the retriever only moves values around. *)
Inductive value : Type :=
  | VNone
  | VBool (b : bool)
  | VInt (n : Z)
  | VFloat (m e : Z)
  | VStr (s : string)
  | VList (l : list value)
  | VDict (d : gmap string value).

(** A dictionary with string keys: a result record, a query mapping, keyword
    arguments, metadata. *)
Abbreviation pydict := (gmap string value).

(** Exceptions.  [KeyError] carries the missing key.  The messages of the
    errors the interpreter raises itself are not modelled.  [OtherError] is
    any other exception class, as a search client may raise. *)
Inductive exn : Type :=
  | ModuleNotFoundError (name : string)
  | ValueError (msg : string)
  | KeyError (key : string)
  | TypeError
  | AttributeError
  | NotImplementedError
  | OtherError (cls msg : string).

(** Modelled from the spec: [langchain.schema.Document], which the module
    imports and does not define, is a content string and a mapping of
    metadata.  What the class does when it is built on a content that is
    not a string is not in this module either; it is the parameter
    [coerce_content] of the retriever below. *)
Record Document : Type := mkDocument {
  page_content : string;
  metadata : pydict
}.

(** ** Classes and the client object *)

(** A class, identified by its module and qualified name, with the identities
    of its proper ancestors (the rest of its method resolution order).
    [cls_meta_str] is what formatting the class gives when its metaclass
    defines that itself, a string or an exception; it is [None] for a
    class whose metaclass leaves the formatting to [type]. *)
Record pyclass : Type := mkClass {
  cls_module : string;
  cls_qualname : string;
  cls_ancestors : list (string * string);
  cls_meta_str : option (exn + string)
}.

Definition cls_id (c : pyclass) : string * string :=
  (cls_module c, cls_qualname c).

(** [issubclass(c, d)] *)
Definition issubclass (c d : pyclass) : bool :=
  bool_decide (cls_id d ∈ cls_id c :: cls_ancestors c).

(** The representation [type] gives a class: [<class 'module.qualname'>],
    the module left out for builtins. *)
Definition type_repr (c : pyclass) : string :=
  "<class '" +:+
  (if String.eqb (cls_module c) "builtins" then cls_qualname c
   else cls_module c +:+ "." +:+ cls_qualname c) +:+ "'>".

(** What an f-string field [{cls}] evaluates to: the formatting of the
    metaclass when it has its own, which may raise, and the
    representation [type] gives otherwise. *)
Definition type_str (c : pyclass) : exn + string :=
  match cls_meta_str c with
  | Some r => r
  | None => inr (type_repr c)
  end.

(** ** The store, the world and the monad *)

(** References to mutable objects. *)
Abbreviation loc := nat.

Section Retriever.

(** The state of the world outside the program, on which a search client
    acts (the remote index, the network), and the run manager the framework
    hands to a retrieval. *)
Context {W RM : Type}.

(** The result of [from metal_sdk.metal import Metal]: the class [Metal]
    when the package is installed, nothing when it is not. *)
Variable import_Metal : option pyclass.

(** What [Document] makes of a content that is not a string: the string
    it stores in its place, or the error its validation raises. *)
Variable coerce_content : value -> exn + string.

(** An object handed in as the client: its class and what calling
    [obj.search(arg, **kwargs)] does, which is to return a value or raise,
    and to change the world.  An object without the method raises
    [AttributeError] there. *)
Record pyobj : Type := mkObj {
  obj_class : pyclass;
  obj_search : pydict -> pydict -> W -> (exn + value) * W
}.

(** [isinstance(obj, cls)] *)
Definition isinstance (o : pyobj) (cls : pyclass) : bool :=
  issubclass (obj_class o) cls.

(** The attributes of a [MetalRetriever] instance; [None] is an attribute
    that has not been set.  [params] refers to a dictionary in the store. *)
Record MetalRetriever : Type := mkMetalRetriever {
  client : option pyobj;
  params : option loc
}.

(** A mutable object of the store. *)
Inductive object : Type :=
  | ODict (d : pydict)
  | OInstance (i : MetalRetriever).

(** One call of the client's search method: its positional argument and
    its keyword arguments. *)
Record call : Type := mkCall {
  call_arg : pydict;
  call_kwargs : pydict
}.

Record state : Type := mkState {
  heap : gmap loc object;
  world : W;
  calls : list call
}.

(** Computations that read and write the state and may raise. *)
Definition M (A : Type) : Type := state -> (exn + A) * state.

Definition ret {A} (a : A) : M A := fun st => (inr a, st).

Definition raise {A} (e : exn) : M A := fun st => (inl e, st).

Definition bind {A B} (m : M A) (k : A -> M B) : M B :=
  fun st =>
    match m st with
    | (inl e, st') => (inl e, st')
    | (inr a, st') => k a st'
    end.

Notation "x <- m ;; k" := (bind m (fun x => k))
  (at level 100, m at next level, right associativity).
Notation "m ;;; k" := (bind m (fun _ => k))
  (at level 100, right associativity).

(** *** Operations on the store *)

(** [self.client], [self.params]: reading an attribute that is not set
    raises [AttributeError]. *)
Definition getattr_client (self : loc) : M pyobj :=
  fun st =>
    match heap st !! self with
    | Some (OInstance {| client := Some c |}) => (inr c, st)
    | _ => (inl AttributeError, st)
    end.

Definition getattr_params (self : loc) : M loc :=
  fun st =>
    match heap st !! self with
    | Some (OInstance {| params := Some p |}) => (inr p, st)
    | _ => (inl AttributeError, st)
    end.

(** [self.client = c], [self.params = p].  [self] is an instance of the
    store; a reference to anything else cannot be a [self] in Python and is
    made an error here. *)
Definition setattr_client (self : loc) (c : pyobj) : M unit :=
  fun st =>
    match heap st !! self with
    | Some (OInstance i) =>
        (inr tt,
         mkState (<[self := OInstance (mkMetalRetriever (Some c) (params i))]> (heap st))
                 (world st) (calls st))
    | _ => (inl AttributeError, st)
    end.

Definition setattr_params (self : loc) (p : loc) : M unit :=
  fun st =>
    match heap st !! self with
    | Some (OInstance i) =>
        (inr tt,
         mkState (<[self := OInstance (mkMetalRetriever (client i) (Some p))]> (heap st))
                 (world st) (calls st))
    | _ => (inl AttributeError, st)
    end.

(** The dictionary display [{}]: a new, empty dictionary object. *)
Definition new_dict : M loc :=
  fun st =>
    let l := fresh (dom (heap st)) in
    (inr l, mkState (<[l := ODict ∅]> (heap st)) (world st) (calls st)).

(** The truth value of an optional dictionary argument: [None] and the
    empty dictionary are false. *)
Definition truthy (x : option loc) : M bool :=
  fun st =>
    match x with
    | None => (inr false, st)
    | Some l =>
        match heap st !! l with
        | Some (ODict d) => (inr (negb (bool_decide (dom d = ∅))), st)
        | _ => (inr true, st)
        end
    end.

(** [x or {}]: [x] itself when it is true, a new empty dictionary when it
    is not. *)
Definition or_new_dict (x : option loc) : M loc :=
  b <- truthy x ;;
  match b, x with
  | true, Some l => ret l
  | _, _ => new_dict
  end.

(** [**d] in a call: the items of the dictionary as it is at the call. *)
Definition unpack (l : loc) : M pydict :=
  fun st =>
    match heap st !! l with
    | Some (ODict d) => (inr d, st)
    | _ => (inl TypeError, st)
    end.

(** [c.search(arg, **kw)]: the call is logged, the client acts on the
    world, and what it raises is raised here. *)
Definition call_search (c : pyobj) (arg kw : pydict) : M value :=
  fun st =>
    let '(r, w') := obj_search c arg kw (world st) in
    (r, mkState (heap st) w' (calls st ++ [mkCall arg kw])).

(** *** Operations on values *)

(** [v[key]] for a string key. *)
Definition getitem (v : value) (key : string) : M value :=
  match v with
  | VDict d =>
      match d !! key with
      | Some x => ret x
      | None => raise (KeyError key)
      end
  | _ => raise TypeError
  end.

(** The elements [for r in v] runs over.  A dictionary yields its keys and
    a string its characters, which are strings; the order in which a
    dictionary yields its keys is the order of [map_to_list], not the
    insertion order. *)
Definition iter (v : value) : M (list value) :=
  match v with
  | VList l => ret l
  | VDict d => ret ((fun kv => VStr kv.1) <$> map_to_list d)
  | VStr s => ret ((fun a => VStr (String a EmptyString)) <$> String.list_ascii_of_string s)
  | _ => raise TypeError
  end.

(** [r.items()] *)
Definition items (r : value) : M pydict :=
  match r with
  | VDict d => ret d
  | _ => raise AttributeError
  end.

(** The f-string field [{type(obj)}]. *)
Definition format_type (o : pyobj) : M string :=
  match type_str (obj_class o) with
  | inr s => ret s
  | inl e => raise e
  end.

(** [Document(page_content=text, metadata=metadata)]: a string is the
    content as it is; any other value goes through the validation of the
    class. *)
Definition new_Document (text : value) (metadata : pydict) : M Document :=
  match text with
  | VStr s => ret (mkDocument s metadata)
  | _ =>
      match coerce_content text with
      | inr s => ret (mkDocument s metadata)
      | inl e => raise e
      end
  end.

(** ** The retriever *)

(** [MetalRetriever.__init__(self, client, params=None)] on a new
    instance [self]. *)
Definition __init__ (self : loc) (client : pyobj) (params : option loc) : M unit :=
  match import_Metal with
  | None => raise (ModuleNotFoundError "metal_sdk")
  | Some Metal =>
      if negb (isinstance client Metal) then
        t <- format_type client ;;
        raise (ValueError
          ("Got unexpected client, should be of type metal_sdk.metal.Metal. "
           +:+ "Instead, got " +:+ t))
      else
        setattr_client self client ;;;
        p <- or_new_dict params ;;
        setattr_params self p
  end.

(** The body of the loop of [_get_relevant_documents], run over the
    records that are left, [final_results] being the list built so far. *)
Fixpoint for_r_in (rs : list value) (final_results : list Document)
    : M (list Document) :=
  match rs with
  | [] => ret final_results
  | r :: rs' =>
      its <- items r ;;
      let metadata := filter (fun kv => kv.1 <> "text") its in
      text <- getitem r "text" ;;
      doc <- new_Document text metadata ;;
      for_r_in rs' (final_results ++ [doc])
  end.

(** [MetalRetriever._get_relevant_documents(self, query, *, run_manager,
    **kwargs)] *)
Definition _get_relevant_documents (self : loc) (query : string)
    (run_manager : RM) (kwargs : pydict) : M (list Document) :=
  c <- getattr_client self ;;
  p <- getattr_params self ;;
  kw <- unpack p ;;
  results <- call_search c {[ "text" := VStr query ]} kw ;;
  data <- getitem results "data" ;;
  rs <- iter data ;;
  for_r_in rs [].

(** [MetalRetriever._aget_relevant_documents(self, query, *, run_manager,
    **kwargs)]: the body of the coroutine, which runs when it is awaited. *)
Definition _aget_relevant_documents (self : loc) (query : string)
    (run_manager : RM) (kwargs : pydict) : M (list Document) :=
  raise NotImplementedError.

End Retriever.

Notation "x <- m ;; k" := (bind m (fun x => k))
  (at level 100, m at next level, right associativity).
Notation "m ;;; k" := (bind m (fun _ => k))
  (at level 100, right associativity).

(** ** Notions the properties are stated with *)

Section Notions.

Context {W RM : Type}.

Variable coerce_content : value -> exn + string.

(** The retriever [self] has been constructed on client [c], and its
    parameters are the dictionary at [p], which holds [kw]. *)
Definition constructed (st : @state W) (self : loc) (c : pyobj) (p : loc)
    (kw : pydict) : Prop :=
  heap st !! self = Some (OInstance (mkMetalRetriever (Some c) (Some p))) /\
  heap st !! p = Some (ODict kw).

(** The state a search call leaves: the store as it was, the world as the
    client left it, the call added to the log. *)
Definition after_search (st : @state W) (c : pyobj) (arg kw : pydict) : state :=
  mkState (heap st) (snd (obj_search c arg kw (world st)))
          (calls st ++ [mkCall arg kw]).

(** The statements of [_get_relevant_documents] after the search call,
    run on the response [results]. *)
Definition process (results : value) : @M W (list Document) :=
  data <- getitem results "data" ;;
  rs <- iter data ;;
  for_r_in coerce_content rs [].

(** [part] occurs in [whole]. *)
Definition includes (part whole : string) : Prop :=
  exists pre post, whole = pre +:+ part +:+ post.

(** A document made of a record: the content is its text, the metadata
    has the other keys, each with the value the record has for it. *)
Definition document_of (d : pydict) (doc : Document) : Prop :=
  d !! "text" = Some (VStr (page_content doc)) /\
  forall k, metadata doc !! k = if decide (k = "text") then None else d !! k.

(** The caller's own [d[k] = v] on a dictionary it holds. *)
Definition caller_setitem (l : loc) (k : string) (v : value) : @M W unit :=
  fun st =>
    match heap st !! l with
    | Some (ODict d) =>
        (inr tt, mkState (<[l := ODict (<[k := v]> d)]> (heap st)) (world st) (calls st))
    | _ => (inl TypeError, st)
    end.

(** The caller running a retrieval for each query of a list in turn,
    whatever each one returns or raises: the state at the end. *)
Definition retrieve_each (self : loc) (run_manager : RM) (qs : list string)
    (st : @state W) : state :=
  foldl (fun st q =>
           snd (_get_relevant_documents coerce_content self q run_manager ∅ st))
        st qs.

(** The store [__init__] leaves when it makes a new dictionary: the
    client is set, the dictionary is made at an unused reference, and the
    parameters are set to it. *)
Definition init_heap_new (h : gmap loc (@object W)) (self : loc)
    (c : @pyobj W) (i : @MetalRetriever W) : gmap loc (@object W) :=
  let h1 := <[self := OInstance (mkMetalRetriever (Some c) (params i))]> h in
  let l := fresh (dom h1) in
  <[self := OInstance (mkMetalRetriever (Some c) (Some l))]> (<[l := ODict ∅]> h1).

(** The reference the attribute [params] of the instance [self] holds. *)
Definition stored_params (st : @state W) (self : loc) : option loc :=
  match heap st !! self with
  | Some (OInstance i) => params i
  | _ => None
  end.

(** The supplied dictionary [arg] was copied at construction: what the
    retriever holds is a dictionary object of its own, not [arg]. *)
Definition params_copied (st : @state W) (self : loc) (arg : loc) : Prop :=
  exists l, stored_params st self = Some l /\ l <> arg.

(** The record a document was made of, put together again: the metadata
    with the content back under the key "text". *)
Definition record_of (doc : Document) : pydict :=
  <[ "text" := VStr (page_content doc) ]> (metadata doc).

(** What the caller supplies as parameters holds [kw]: the dictionary at
    the reference it passes, or nothing at all, which stands for no
    parameters. *)
Definition supplied (st : @state W) (arg : option loc) (kw : pydict) : Prop :=
  match arg with
  | Some p => heap st !! p = Some (ODict kw)
  | None => kw = ∅
  end.

(** The values that are neither subscriptable by a key nor iterable. *)
Definition is_scalar (v : value) : bool :=
  match v with
  | VNone | VBool _ | VInt _ | VFloat _ _ => true
  | _ => false
  end.

(** The record has a text, and it is a string. *)
Definition has_text (d : pydict) : Prop :=
  exists s, d !! "text" = Some (VStr s).

(** The text of the record, when it has one, is a string. *)
Definition text_is_string (d : pydict) : Prop :=
  forall v, d !! "text" = Some v -> exists s, v = VStr s.

(** [part] occurs in [whole], by search: at the start of [whole], or in
    what follows its first character. *)
Fixpoint occurs (part whole : string) : bool :=
  String.prefix part whole ||
  match whole with
  | EmptyString => false
  | String _ rest => occurs part rest
  end.

End Notions.

(** ** Concrete clients, responses and states *)

Definition ex_Metal : pyclass :=
  mkClass "metal_sdk.metal" "Metal" [("builtins", "object")] None.

Definition ex_int : pyclass :=
  mkClass "builtins" "int" [("builtins", "object")] None.

(** A class whose metaclass formats it without its name. *)
Definition ex_Odd : pyclass :=
  mkClass "app" "Odd" [("builtins", "object")] (Some (inr "a client class")).

(** An instance of [ex_Odd] handed in as a client; it has no search
    method. *)
Definition ex_odd : @pyobj nat :=
  mkObj ex_Odd (fun _ _ w => (inl AttributeError, w)).

(** A validation of the content that takes an integer for its decimal
    digits and refuses everything else. *)
Definition ex_coerce (v : value) : exn + string :=
  match v with
  | VInt n => inr (pretty n)
  | _ => inl (OtherError "ValidationError" "str type expected")
  end.

(** A client stub whose search always has the outcome [r], and counts its
    calls in the world. *)
Definition ex_stub (r : exn + value) : @pyobj nat :=
  mkObj ex_Metal (fun _ _ w => (r, S w)).

(** The integer [5] handed in as a client; it has no search method. *)
Definition ex_five : @pyobj nat :=
  mkObj ex_int (fun _ _ w => (inl AttributeError, w)).

Definition ex_record_a : pydict := {[ "text" := VStr "a"; "score" := VFloat 9 (-1) ]}.
Definition ex_record_b : pydict := {[ "text" := VStr "b"; "score" := VFloat 5 (-1) ]}.
Definition ex_record_no_text : pydict := {[ "score" := VFloat 5 (-1) ]}.

Definition ex_result : pydict :=
  {[ "data" := VList [VDict ex_record_a; VDict ex_record_b] ]}.

Definition ex_result_no_text : pydict :=
  {[ "data" := VList [VDict ex_record_a; VDict ex_record_no_text] ]}.

Definition ex_result_no_data : pydict :=
  {[ "results" := VList [] ]}.

Definition ex_params : pydict := {[ "k" := VInt 1 ]}.

(** A new instance at [0], before [__init__], and the caller's parameter
    dictionary at [1]. *)
Definition ex_new (kw : pydict) : @state nat :=
  mkState {[ 0 := OInstance (mkMetalRetriever None None); 1 := ODict kw ]} 0 [].

(** The instance constructed on the stub with the dictionary at [1]. *)
Definition ex_ready (r : exn + value) : @state nat :=
  mkState {[ 0 := OInstance (mkMetalRetriever (Some (ex_stub r)) (Some 1));
             1 := ODict ex_params ]} 0 [].

(** ** Properties *)

Section Properties.

Context {W RM : Type}.

Variable coerce_content : value -> exn + string.

Implicit Types (st : @state W) (c : @pyobj W) (self p : loc) (kw : pydict)
  (rm : RM) (q : string).

Lemma string_app_assoc (s1 s2 s3 : string) :
  (s1 +:+ s2) +:+ s3 = s1 +:+ (s2 +:+ s3).
Proof.
  induction s1 as [|a s1 IH]; [reflexivity|].
  change (String a ((s1 +:+ s2) +:+ s3) = String a (s1 +:+ (s2 +:+ s3))).
  now rewrite IH.
Qed.

(** Building a document gives a document or raises, and has no effect on
    the state. *)
Lemma new_Document_state (t : value) (md : pydict) st :
  (exists doc, new_Document coerce_content t md st = (inr doc, st)) \/
  (exists e, new_Document coerce_content t md st = (inl e, st)).
Proof.
  unfold new_Document.
  destruct t; try (destruct (coerce_content _); [right | left]; eexists; reflexivity).
  left. eexists. reflexivity.
Qed.

(** The loop has no effect on the state. *)
Lemma for_r_in_state rs acc st :
  snd (for_r_in (W:=W) coerce_content rs acc st) = st.
Proof.
  revert acc. induction rs as [|r rs IH]; intros acc; [reflexivity|].
  cbn [for_r_in]. unfold bind.
  destruct r; try reflexivity. cbn [items ret].
  unfold getitem. destruct (d !! "text") as [t|]; [|reflexivity]. cbn [ret].
  destruct (new_Document_state t (filter (fun kv => kv.1 <> "text") d) st)
    as [[doc ->]|[e ->]]; [apply IH | reflexivity].
Qed.

Lemma process_state results st : snd (process coerce_content results st) = st.
Proof.
  unfold process, bind.
  destruct results; try reflexivity. cbn [getitem].
  destruct (d !! "data") as [data|]; [|reflexivity]. cbn [ret].
  destruct data; try reflexivity; cbn [iter ret]; apply for_r_in_state.
Qed.

(** A retrieval on a constructed retriever is one search call, followed
    by the processing of what it returned. *)
Lemma retrieve_run st self c p kw q rm kwargs :
  constructed st self c p kw ->
  _get_relevant_documents coerce_content self q rm kwargs st =
    match fst (obj_search c {[ "text" := VStr q ]} kw (world st)) with
    | inl e => (inl e, after_search st c {[ "text" := VStr q ]} kw)
    | inr results => process coerce_content results (after_search st c {[ "text" := VStr q ]} kw)
    end.
Proof.
  intros [Hself Hp].
  unfold _get_relevant_documents, bind at 1, getattr_client. rewrite Hself.
  unfold bind at 1, getattr_params. rewrite Hself.
  unfold bind at 1, unpack. rewrite Hp.
  unfold bind at 1, call_search, after_search.
  destruct (obj_search c _ kw (world st)) as [[e|results] w']; reflexivity.
Qed.

Lemma retrieve_state st self c p kw q rm kwargs :
  constructed st self c p kw ->
  snd (_get_relevant_documents coerce_content self q rm kwargs st) =
    after_search st c {[ "text" := VStr q ]} kw.
Proof.
  intros Hc. rewrite (retrieve_run _ _ _ _ _ _ _ _ Hc).
  destruct (fst (obj_search c _ kw (world st))); [reflexivity|].
  apply process_state.
Qed.

Lemma document_of_filter (d : pydict) (t : string) :
  d !! "text" = Some (VStr t) ->
  document_of d (mkDocument t (filter (fun kv => kv.1 <> "text") d)).
Proof.
  intros Ht. split; [exact Ht|]. intros k. cbn [metadata].
  rewrite map_lookup_filter. case_decide as Hk.
  - subst k. rewrite Ht. cbn. rewrite option_guard_False; [reflexivity|].
    intros Hne. now apply Hne.
  - destruct (d !! k) as [x|]; [|reflexivity]. cbn.
    rewrite option_guard_True; [reflexivity | exact Hk].
Qed.

(** One turn of the loop on a record whose text is a string. *)
Lemma for_r_in_step (d : pydict) (t : string) (rs : list value) acc st :
  d !! "text" = Some (VStr t) ->
  for_r_in coerce_content (VDict d :: rs) acc st =
    for_r_in coerce_content rs
      (acc ++ [mkDocument t (filter (fun kv => kv.1 <> "text") d)]) st.
Proof.
  intros Ht. cbn [for_r_in]. unfold bind at 1. cbn [items ret].
  unfold bind at 1, getitem. rewrite Ht. cbn [ret]. reflexivity.
Qed.

(** On records that all have a text the loop adds one document for each,
    in their order. *)
Lemma for_r_in_records (ds : list pydict) acc st :
  Forall has_text ds ->
  exists docs,
    for_r_in coerce_content (VDict <$> ds) acc st = (inr (acc ++ docs), st) /\
    Forall2 document_of ds docs.
Proof.
  intros Hds. revert acc. induction Hds as [|d ds [t Ht] _ IH]; intros acc.
  - exists []. rewrite app_nil_r. split; [reflexivity | constructor].
  - destruct (IH (acc ++ [mkDocument t (filter (fun kv => kv.1 <> "text") d)]))
      as (docs & Hrun & Hdocs).
    exists (mkDocument t (filter (fun kv => kv.1 <> "text") d) :: docs). split.
    + rewrite fmap_cons, (for_r_in_step d t _ _ _ Ht).
      rewrite Hrun. now rewrite <- app_assoc.
    + constructor; [now apply document_of_filter | exact Hdocs].
Qed.

(** On records whose texts are strings and one of which has no text,
    the loop raises [KeyError]. *)
Lemma for_r_in_missing (ds : list pydict) acc st :
  Forall text_is_string ds ->
  Exists (fun d => d !! "text" = None) ds ->
  for_r_in coerce_content (VDict <$> ds) acc st = (inl (KeyError "text"), st).
Proof.
  revert acc. induction ds as [|d ds IH]; intros acc Hstr Hex.
  - inversion Hex.
  - inversion Hstr as [|? ? Hd Hds]; subst. rewrite fmap_cons.
    destruct (d !! "text") as [v|] eqn:Ht.
    + destruct (Hd v Ht) as [t ->]. rewrite (for_r_in_step d t _ _ _ Ht).
      apply IH; [exact Hds|].
      inversion Hex as [? ? Hn|? ? Htl]; subst; [congruence | exact Htl].
    + cbn [for_r_in]. unfold bind at 1. cbn [items ret].
      unfold bind at 1, getitem. now rewrite Ht.
Qed.

(** C1: when the client returns a mapping whose "data" key holds a list of
    records that all have a "text" key, the text being a string, the
    retrieval returns one document for each record, in the order of the
    records; the content of each is the text of its record and its
    metadata has exactly the other keys of the record, with their values.
    No records give no documents. *)
Theorem retrieve_one_document_per_record st self c p kw q rm kwargs
    (res : pydict) (w' : W) (ds : list pydict) :
  constructed st self c p kw ->
  obj_search c {[ "text" := VStr q ]} kw (world st) = (inr (VDict res), w') ->
  res !! "data" = Some (VList (VDict <$> ds)) ->
  Forall has_text ds ->
  exists docs,
    fst (_get_relevant_documents coerce_content self q rm kwargs st) = inr docs /\
    Forall2 document_of ds docs /\
    (ds = [] -> docs = []).
Proof.
  intros Hc Hs Hdata Hds.
  rewrite (retrieve_run _ _ _ _ _ _ _ _ Hc), Hs. cbn [fst].
  unfold process, bind at 1, getitem. rewrite Hdata. cbn [ret].
  unfold bind at 1. cbn [iter ret].
  destruct (for_r_in_records ds [] (after_search st c {[ "text" := VStr q ]} kw) Hds)
    as (docs & Hrun & Hdocs).
  exists docs. rewrite Hrun. split; [reflexivity|]. split; [exact Hdocs|].
  intros ->. now inversion Hdocs.
Qed.

(** C2: every retrieval on a constructed retriever calls the client's
    search with the mapping {"text": query} as its argument and the stored
    parameters as its keyword arguments; the call is the one thing added to
    the log of calls, and the world is as that call leaves it. *)
Theorem retrieve_calls_search st self c p kw q rm kwargs :
  constructed st self c p kw ->
  calls (snd (_get_relevant_documents coerce_content self q rm kwargs st)) =
    calls st ++ [mkCall {[ "text" := VStr q ]} kw] /\
  world (snd (_get_relevant_documents coerce_content self q rm kwargs st)) =
    snd (obj_search c {[ "text" := VStr q ]} kw (world st)).
Proof.
  intros Hc. rewrite (retrieve_state _ _ _ _ _ _ _ _ Hc). split; reflexivity.
Qed.

(** The message of the error the construction raises on a client whose
    type formats to [t]. *)
Lemma init_run_rejected (Metal : pyclass) self c (params : option loc) st
    (t : string) :
  isinstance c Metal = false ->
  type_str (obj_class c) = inr t ->
  __init__ (Some Metal) self c params st =
    (inl (ValueError
            ("Got unexpected client, should be of type metal_sdk.metal.Metal. "
             +:+ "Instead, got " +:+ t)), st).
Proof.
  intros Hinst Ht. unfold __init__. rewrite Hinst. cbn [negb].
  unfold bind, format_type. now rewrite Ht.
Qed.

(** C3, as amended: when the client is not an instance of the class Metal
    and its type formats to a string, the construction raises
    [ValueError] with a message that ends with that string, and leaves the
    state, the attributes of the instance among it, as it was.  When the
    type has the representation [type] gives, the name of the type occurs
    in the message. *)
Theorem init_rejects_other_client (Metal : pyclass) self c (params : option loc) st
    (t : string) :
  isinstance c Metal = false ->
  type_str (obj_class c) = inr t ->
  __init__ (Some Metal) self c params st =
    (inl (ValueError
            ("Got unexpected client, should be of type metal_sdk.metal.Metal. "
             +:+ "Instead, got " +:+ t)), st) /\
  (cls_meta_str (obj_class c) = None ->
   includes (cls_qualname (obj_class c))
     ("Got unexpected client, should be of type metal_sdk.metal.Metal. "
      +:+ "Instead, got " +:+ t)).
Proof.
  intros Hinst Ht. split; [now apply init_run_rejected|].
  intros Hmeta. unfold type_str in Ht. rewrite Hmeta in Ht.
  injection Ht as <-. unfold includes, type_repr.
  destruct (String.eqb (cls_module (obj_class c)) "builtins").
  - exists ("Got unexpected client, should be of type metal_sdk.metal.Metal. "
            +:+ "Instead, got " +:+ "<class '"), "'>".
    reflexivity.
  - exists ("Got unexpected client, should be of type metal_sdk.metal.Metal. "
            +:+ "Instead, got " +:+ "<class '" +:+ cls_module (obj_class c) +:+ "."),
           "'>".
    rewrite !string_app_assoc. reflexivity.
Qed.

(** C4: when the response holds records, the text of those that have
    one being a string, and one of them has no "text" key, the retrieval
    raises [KeyError] for the key "text"; it returns no documents, and no
    content stands in for the missing text. *)
Theorem retrieve_record_without_text st self c p kw q rm kwargs
    (res : pydict) (w' : W) (ds : list pydict) :
  constructed st self c p kw ->
  obj_search c {[ "text" := VStr q ]} kw (world st) = (inr (VDict res), w') ->
  res !! "data" = Some (VList (VDict <$> ds)) ->
  Forall text_is_string ds ->
  Exists (fun d => d !! "text" = None) ds ->
  _get_relevant_documents coerce_content self q rm kwargs st =
    (inl (KeyError "text"), after_search st c {[ "text" := VStr q ]} kw).
Proof.
  intros Hc Hs Hdata Hstr Hex.
  rewrite (retrieve_run _ _ _ _ _ _ _ _ Hc), Hs. cbn [fst].
  unfold process, bind at 1, getitem. rewrite Hdata. cbn [ret].
  unfold bind at 1. cbn [iter ret].
  now apply for_r_in_missing.
Qed.

(** C5: when the client's search raises an error, the retrieval raises
    that same error, and returns no documents. *)
Theorem retrieve_propagates_client_error st self c p kw q rm kwargs
    (e : exn) (w' : W) :
  constructed st self c p kw ->
  obj_search c {[ "text" := VStr q ]} kw (world st) = (inl e, w') ->
  _get_relevant_documents coerce_content self q rm kwargs st =
    (inl e, after_search st c {[ "text" := VStr q ]} kw).
Proof.
  intros Hc Hs. rewrite (retrieve_run _ _ _ _ _ _ _ _ Hc), Hs. reflexivity.
Qed.

(** C6: the asynchronous retrieval raises [NotImplementedError] for every
    query, the empty one too, in every state; the state is as it was, so
    no call of the client is made. *)
Theorem aget_not_implemented st self q rm kwargs :
  _aget_relevant_documents (W:=W) self q rm kwargs st = (inl NotImplementedError, st) /\
  _aget_relevant_documents (W:=W) self "" rm kwargs st = (inl NotImplementedError, st) /\
  calls (snd (_aget_relevant_documents self q rm kwargs st)) = calls st.
Proof. repeat split. Qed.

(** C8: a retrieval leaves the store as it was, so the retriever is still
    constructed on the same client and parameters; the state after it
    differs from the state before by the one search call and by nothing
    else. *)
Theorem retrieve_keeps_adapter_state st self c p kw q rm kwargs :
  constructed st self c p kw ->
  heap (snd (_get_relevant_documents coerce_content self q rm kwargs st)) = heap st /\
  constructed (snd (_get_relevant_documents coerce_content self q rm kwargs st)) self c p kw /\
  snd (_get_relevant_documents coerce_content self q rm kwargs st) =
    after_search st c {[ "text" := VStr q ]} kw.
Proof.
  intros Hc. rewrite (retrieve_state _ _ _ _ _ _ _ _ Hc).
  split; [reflexivity|]. split; [exact Hc | reflexivity].
Qed.

(** C9: when the client returns a mapping without a "data" key, the
    retrieval raises [KeyError] for the key "data" and returns no
    documents. *)
Theorem retrieve_response_without_data st self c p kw q rm kwargs
    (res : pydict) (w' : W) :
  constructed st self c p kw ->
  obj_search c {[ "text" := VStr q ]} kw (world st) = (inr (VDict res), w') ->
  res !! "data" = None ->
  _get_relevant_documents coerce_content self q rm kwargs st =
    (inl (KeyError "data"), after_search st c {[ "text" := VStr q ]} kw).
Proof.
  intros Hc Hs Hdata.
  rewrite (retrieve_run _ _ _ _ _ _ _ _ Hc), Hs. cbn [fst].
  unfold process, bind at 1, getitem. now rewrite Hdata.
Qed.

Lemma init_run_new (Metal : pyclass) self c (arg : option loc) st i :
  isinstance c Metal = true ->
  heap st !! self = Some (OInstance i) ->
  arg = None \/ (exists p, arg = Some p /\ heap st !! p = Some (ODict ∅)) ->
  __init__ (Some Metal) self c arg st =
    (inr tt, mkState (init_heap_new (heap st) self c i) (world st) (calls st)).
Proof.
  intros Hinst Hself Harg. unfold __init__. rewrite Hinst. cbn [negb].
  unfold bind at 1, setattr_client. rewrite Hself.
  set (h1 := <[self := _]> (heap st)).
  assert (Hfresh : fresh (dom h1) <> self).
  { intros Heq. apply (is_fresh (dom h1)). rewrite Heq.
    apply elem_of_dom. unfold h1. rewrite lookup_insert_eq. eauto. }
  assert (Hnew : or_new_dict arg (mkState h1 (world st) (calls st)) =
                 new_dict (mkState h1 (world st) (calls st))).
  { unfold or_new_dict, bind, truthy. destruct Harg as [->|(p & -> & Hp)].
    - reflexivity.
    - cbn [heap]. assert (p <> self) by congruence.
      unfold h1. rewrite lookup_insert_ne by congruence. rewrite Hp.
      rewrite dom_empty_L, bool_decide_eq_true_2 by reflexivity. reflexivity. }
  unfold bind at 1. rewrite Hnew. unfold new_dict. cbn [heap world calls].
  unfold setattr_params. cbn [heap world calls].
  rewrite lookup_insert_ne by exact Hfresh.
  unfold h1 at 1. rewrite lookup_insert_eq. reflexivity.
Qed.

Lemma init_run_ref (Metal : pyclass) self c p (d : pydict) st i :
  isinstance c Metal = true ->
  heap st !! self = Some (OInstance i) ->
  heap st !! p = Some (ODict d) ->
  d <> ∅ ->
  __init__ (Some Metal) self c (Some p) st =
    (inr tt, mkState (<[self := OInstance (mkMetalRetriever (Some c) (Some p))]> (heap st))
                     (world st) (calls st)).
Proof.
  intros Hinst Hself Hp Hd. unfold __init__. rewrite Hinst. cbn [negb].
  unfold bind at 1, setattr_client. rewrite Hself.
  assert (p <> self) by congruence.
  unfold bind at 1, or_new_dict, bind, truthy. cbn [heap world calls].
  rewrite lookup_insert_ne by congruence. rewrite Hp.
  rewrite bool_decide_eq_false_2 by (now rewrite dom_empty_iff_L).
  cbn [negb ret]. unfold setattr_params. cbn [heap world calls].
  rewrite lookup_insert_eq. cbn [client]. now rewrite insert_insert_eq.
Qed.

Lemma init_heap_new_spec (h : gmap loc object) self c (i : @MetalRetriever W) :
  h !! self = Some (OInstance i) ->
  exists l,
    (l ∉ dom h) /\
    init_heap_new h self c i !! self =
      Some (OInstance (mkMetalRetriever (Some c) (Some l))) /\
    init_heap_new h self c i !! l = Some (ODict ∅) /\
    (forall l', l' <> self -> l' ∈ dom h -> init_heap_new h self c i !! l' = h !! l').
Proof.
  intros Hself. unfold init_heap_new.
  set (h1 := <[self := _]> h).
  assert (Hdom : dom h1 = dom h).
  { unfold h1. apply dom_insert_lookup_L. eauto. }
  assert (Hl : fresh (dom h1) ∉ dom h) by (rewrite <- Hdom; apply is_fresh).
  assert (Hne : fresh (dom h1) <> self).
  { intros Heq. apply Hl. rewrite Heq. apply elem_of_dom. eauto. }
  exists (fresh (dom h1)). split; [exact Hl|]. split; [apply lookup_insert_eq|]. split.
  - rewrite lookup_insert_ne by congruence. apply lookup_insert_eq.
  - intros l' Hl' Hin. rewrite lookup_insert_ne by congruence.
    rewrite lookup_insert_ne by (intros <-; contradiction).
    unfold h1. now rewrite lookup_insert_ne by congruence.
Qed.

(** C7, as amended: the construction on an instance of Metal stores the
    client and a parameter dictionary in the attributes of the instance,
    and changes nothing else that was in the store.  A dictionary that is
    supplied and is not empty is stored itself, the same object and no
    copy of it; when none is supplied, or an empty one, a new empty
    dictionary is made and stored. *)
Theorem init_stores_client_and_params (Metal : pyclass) self c
    (arg : option loc) st (i : MetalRetriever) :
  isinstance c Metal = true ->
  heap st !! self = Some (OInstance i) ->
  (forall p, arg = Some p -> exists d, heap st !! p = Some (ODict d)) ->
  exists st' l,
    __init__ (Some Metal) self c arg st = (inr tt, st') /\
    heap st' !! self = Some (OInstance (mkMetalRetriever (Some c) (Some l))) /\
    world st' = world st /\ calls st' = calls st /\
    (forall l', l' <> self -> l' ∈ dom (heap st) -> heap st' !! l' = heap st !! l') /\
    (forall p d, arg = Some p -> heap st !! p = Some (ODict d) -> d <> ∅ ->
       l = p /\ dom (heap st') = dom (heap st)) /\
    (arg = None \/ (exists p, arg = Some p /\ heap st !! p = Some (ODict ∅)) ->
       (l ∉ dom (heap st)) /\ heap st' !! l = Some (ODict ∅)).
Proof.
  intros Hinst Hself Harg.
  assert (Hcase : (exists p d, arg = Some p /\ heap st !! p = Some (ODict d) /\ d <> ∅) \/
                  (arg = None \/ exists p, arg = Some p /\ heap st !! p = Some (ODict ∅))).
  { destruct arg as [p|]; [|right; left; reflexivity].
    destruct (Harg p eq_refl) as [d Hp].
    destruct (decide (dom d = ∅)) as [Hd|Hd].
    - apply dom_empty_iff_L in Hd. subst d. right. right. eauto.
    - left. exists p, d. repeat split; try assumption.
      intros ->. apply Hd, dom_empty_L. }
  destruct Hcase as [(p & d & -> & Hp & Hd)|Hnew].
  - eexists _, p. split; [exact (init_run_ref Metal self c p d st i Hinst Hself Hp Hd)|].
    cbn [heap world calls]. split; [apply lookup_insert_eq|].
    split; [reflexivity|]. split; [reflexivity|]. split; [|split].
    + intros l' Hl' _. now rewrite lookup_insert_ne by congruence.
    + intros p' d' [= <-] _ _. split; [reflexivity|].
      apply dom_insert_lookup_L. eauto.
    + intros [Hn|(p' & [= <-] & Hp')]; [discriminate|]. congruence.
  - destruct (init_heap_new_spec (heap st) self c i Hself) as (l & Hl & Hs & Hlk & Hother).
    eexists _, l. split; [exact (init_run_new Metal self c arg st i Hinst Hself Hnew)|].
    cbn [heap world calls]. split; [exact Hs|].
    split; [reflexivity|]. split; [reflexivity|]. split; [exact Hother|]. split.
    + intros p d -> Hp Hd. destruct Hnew as [Hn|(p' & [= <-] & Hp')]; [discriminate|].
      congruence.
    + intros _. split; assumption.
Qed.

(** Retrievals one after the other on a constructed retriever: each adds
    its call, with the same keyword arguments, and the retriever stays
    constructed. *)
Lemma retrieve_each_calls self c p kw rm (qs : list string) st :
  constructed st self c p kw ->
  calls (retrieve_each coerce_content self rm qs st) =
    calls st ++ ((fun q => mkCall {[ "text" := VStr q ]} kw) <$> qs).
Proof.
  revert st. induction qs as [|q qs IH]; intros st Hc.
  - cbn. now rewrite app_nil_r.
  - unfold retrieve_each in *. cbn [foldl].
    rewrite (retrieve_state _ _ _ _ _ _ _ _ Hc).
    rewrite IH by exact Hc. cbn [calls after_search fmap list_fmap].
    now rewrite <- app_assoc.
Qed.

(** C10: the construction with an empty dictionary supplied does what the
    construction with nothing supplied does, result and state: a new
    empty dictionary is stored, and every retrieval that follows calls
    the search with no keyword arguments. *)
Theorem init_empty_params_as_none (Metal : pyclass) self c p st
    (i : MetalRetriever) :
  isinstance c Metal = true ->
  heap st !! self = Some (OInstance i) ->
  heap st !! p = Some (ODict ∅) ->
  __init__ (Some Metal) self c (Some p) st = __init__ (Some Metal) self c None st /\
  exists st' l,
    __init__ (Some Metal) self c None st = (inr tt, st') /\
    constructed st' self c l ∅ /\
    forall rm (qs : list string),
      calls (retrieve_each coerce_content self rm qs st') =
        calls st' ++ ((fun q => mkCall {[ "text" := VStr q ]} ∅) <$> qs).
Proof.
  intros Hinst Hself Hp.
  rewrite (init_run_new Metal self c (Some p) st i Hinst Hself) by eauto.
  rewrite (init_run_new Metal self c None st i Hinst Hself) by eauto.
  split; [reflexivity|].
  destruct (init_heap_new_spec (heap st) self c i Hself) as (l & Hl & Hs & Hlk & _).
  eexists _, l. split; [reflexivity|].
  assert (Hc : constructed
            (mkState (init_heap_new (heap st) self c i) (world st) (calls st))
            self c l ∅) by (split; assumption).
  split; [exact Hc|]. intros rm qs. now apply (retrieve_each_calls self c l ∅).
Qed.

End Properties.

(** ** The properties at concrete inputs *)

(** The client stub returns two records with a score each: two documents,
    in order, each with its text and its score. *)
Example retrieve_two_records :
  fst (_get_relevant_documents ex_coerce 0 "q" tt ∅ (ex_ready (inr (VDict ex_result)))) =
    inr [mkDocument "a" {[ "score" := VFloat 9 (-1) ]};
         mkDocument "b" {[ "score" := VFloat 5 (-1) ]}].
Proof. vm_compute. reflexivity. Qed.

Lemma retrieve_one_document_per_record_witness :
  exists docs,
    fst (_get_relevant_documents ex_coerce 0 "q" tt ∅ (ex_ready (inr (VDict ex_result)))) =
      inr docs /\
    Forall2 document_of [ex_record_a; ex_record_b] docs /\
    ([ex_record_a; ex_record_b] = [] -> docs = []).
Proof.
  apply (retrieve_one_document_per_record (RM:=unit) ex_coerce
           (ex_ready (inr (VDict ex_result))) 0 (ex_stub (inr (VDict ex_result)))
           1 ex_params "q" tt ∅ ex_result 1 [ex_record_a; ex_record_b]).
  - split; reflexivity.
  - reflexivity.
  - reflexivity.
  - repeat constructor; eexists; vm_compute; reflexivity.
Defined.

Lemma retrieve_calls_search_witness :
  calls (snd (_get_relevant_documents ex_coerce 0 "q" tt ∅ (ex_ready (inr (VDict ex_result))))) =
    [] ++ [mkCall {[ "text" := VStr "q" ]} ex_params] /\
  world (snd (_get_relevant_documents ex_coerce 0 "q" tt ∅ (ex_ready (inr (VDict ex_result))))) =
    1.
Proof.
  apply (retrieve_calls_search (RM:=unit) ex_coerce
           (ex_ready (inr (VDict ex_result))) 0 (ex_stub (inr (VDict ex_result)))
           1 ex_params "q" tt ∅).
  split; reflexivity.
Defined.

Lemma init_rejects_other_client_witness :
  __init__ (Some ex_Metal) 0 ex_five None (ex_new ∅) =
    (inl (ValueError
            ("Got unexpected client, should be of type metal_sdk.metal.Metal. "
             +:+ "Instead, got " +:+ "<class 'int'>")), ex_new ∅) /\
  (cls_meta_str (obj_class ex_five) = None ->
   includes (cls_qualname (obj_class ex_five))
     ("Got unexpected client, should be of type metal_sdk.metal.Metal. "
      +:+ "Instead, got " +:+ "<class 'int'>")).
Proof.
  apply (init_rejects_other_client ex_Metal 0 ex_five None (ex_new ∅) "<class 'int'>").
  - reflexivity.
  - reflexivity.
Defined.

Lemma prefix_app (part post : string) :
  String.prefix part (part +:+ post) = true.
Proof.
  induction part as [|a part IH].
  { change ("" +:+ post) with post. now destruct post. }
  change (String a part +:+ post) with (String a (part +:+ post)).
  cbn [String.prefix]. destruct (Ascii.ascii_dec a a); [exact IH | contradiction].
Qed.

Lemma includes_occurs (part whole : string) :
  includes part whole -> occurs part whole = true.
Proof.
  intros (pre & post & ->). induction pre as [|a pre IH].
  - change ("" +:+ part +:+ post) with (part +:+ post).
    destruct (part +:+ post) eqn:Heq; cbn [occurs]; rewrite <- Heq, prefix_app;
      reflexivity.
  - change (String a pre +:+ part +:+ post) with (String a (pre +:+ part +:+ post)).
    cbn [occurs]. rewrite IH. apply orb_true_r.
Qed.

(** C3 as the specification words it fails: a client whose class is
    formatted by its metaclass as "a client class" is not an instance of
    Metal, and the message of the error the construction raises on it
    does not have the name of the class, "Odd", in it. *)
Lemma init_message_without_type_name :
  isinstance ex_odd ex_Metal = false /\
  ~ exists msg,
      __init__ (Some ex_Metal) 0 ex_odd None (ex_new ∅) =
        (inl (ValueError msg), ex_new ∅) /\
      includes (cls_qualname (obj_class ex_odd)) msg.
Proof.
  split; [reflexivity|]. intros (msg & Hrun & Hinc).
  rewrite (init_run_rejected ex_Metal 0 ex_odd None (ex_new ∅) "a client class")
    in Hrun by reflexivity.
  assert (Hmsg : msg = "Got unexpected client, should be of type metal_sdk.metal.Metal. "
                       +:+ "Instead, got " +:+ "a client class") by congruence.
  subst msg. apply includes_occurs in Hinc. vm_compute in Hinc. discriminate.
Qed.

Lemma retrieve_record_without_text_witness :
  _get_relevant_documents ex_coerce 0 "q" tt ∅ (ex_ready (inr (VDict ex_result_no_text))) =
    (inl (KeyError "text"),
     after_search (ex_ready (inr (VDict ex_result_no_text)))
       (ex_stub (inr (VDict ex_result_no_text))) {[ "text" := VStr "q" ]} ex_params).
Proof.
  apply (retrieve_record_without_text (RM:=unit) ex_coerce
           (ex_ready (inr (VDict ex_result_no_text))) 0
           (ex_stub (inr (VDict ex_result_no_text))) 1 ex_params "q" tt ∅
           ex_result_no_text 1 [ex_record_a; ex_record_no_text]).
  - split; reflexivity.
  - reflexivity.
  - reflexivity.
  - repeat constructor; intros v Hv; vm_compute in Hv;
      first [discriminate | injection Hv as <-; eexists; reflexivity].
  - apply Exists_cons_tl, Exists_cons_hd. reflexivity.
Defined.

Lemma retrieve_propagates_client_error_witness :
  _get_relevant_documents ex_coerce 0 "q" tt ∅ (ex_ready (inl (OtherError "ConnectionError" "down"))) =
    (inl (OtherError "ConnectionError" "down"),
     after_search (ex_ready (inl (OtherError "ConnectionError" "down")))
       (ex_stub (inl (OtherError "ConnectionError" "down")))
       {[ "text" := VStr "q" ]} ex_params).
Proof.
  apply (retrieve_propagates_client_error (RM:=unit) ex_coerce
           (ex_ready (inl (OtherError "ConnectionError" "down"))) 0
           (ex_stub (inl (OtherError "ConnectionError" "down"))) 1 ex_params
           "q" tt ∅ (OtherError "ConnectionError" "down") 1).
  - split; reflexivity.
  - reflexivity.
Defined.

(** C7 as the specification words it fails: the retriever constructed on
    the caller's dictionary at [1] holds that very dictionary, so the
    parameters were not copied; after the caller sets a key of its
    dictionary, the next search call gets the changed parameters and not
    those given at construction. *)
Lemma init_params_not_copied :
  let st1 := snd (__init__ (Some ex_Metal) 0 (ex_stub (inr (VDict ex_result)))
                    (Some 1) (ex_new ex_params)) in
  let st2 := snd (caller_setitem 1 "k" (VInt 2) st1) in
  let st3 := snd (_get_relevant_documents ex_coerce 0 "q" tt ∅ st2) in
  ~ params_copied st1 0 1 /\
  stored_params st1 0 = Some 1 /\
  call_kwargs <$> calls st3 = [ {[ "k" := VInt 2 ]} ] /\
  call_kwargs <$> calls st3 <> [ ex_params ].
Proof.
  assert (Hst : stored_params
            (snd (__init__ (Some ex_Metal) 0 (ex_stub (inr (VDict ex_result)))
                    (Some 1) (ex_new ex_params))) 0 = Some 1)
    by (vm_compute; reflexivity).
  cbv zeta. split; [|split; [exact Hst|split]].
  - intros (l & Hl & Hne). rewrite Hst in Hl. congruence.
  - vm_compute. reflexivity.
  - intros Heq. apply (f_equal (fun ks => head ks ≫= fun kw => kw !! "k")) in Heq.
    vm_compute in Heq. discriminate.
Qed.

Lemma init_stores_client_and_params_witness :
  exists (st' : @state nat) l,
    __init__ (Some ex_Metal) 0 (ex_stub (inr (VDict ex_result))) (Some 1)
      (ex_new ex_params) = (inr tt, st') /\
    heap st' !! 0 =
      Some (OInstance (mkMetalRetriever (Some (ex_stub (inr (VDict ex_result)))) (Some l))) /\
    world st' = 0 /\ calls st' = [] /\
    (forall l', l' <> 0 -> l' ∈ dom (heap (ex_new ex_params)) ->
       heap st' !! l' = heap (ex_new ex_params) !! l') /\
    (forall p d, Some 1 = Some p -> heap (ex_new ex_params) !! p = Some (ODict d) ->
       d <> ∅ -> l = p /\ dom (heap st') = dom (heap (ex_new ex_params))) /\
    (Some 1 = None \/
     (exists p, Some 1 = Some p /\ heap (ex_new ex_params) !! p = Some (ODict ∅)) ->
       (l ∉ dom (heap (ex_new ex_params))) /\ heap st' !! l = Some (ODict ∅)).
Proof.
  apply (init_stores_client_and_params ex_Metal 0 (ex_stub (inr (VDict ex_result)))
           (Some 1) (ex_new ex_params) (mkMetalRetriever None None)).
  - reflexivity.
  - reflexivity.
  - intros p [= <-]. eexists. reflexivity.
Defined.

Lemma retrieve_keeps_adapter_state_witness :
  heap (snd (_get_relevant_documents ex_coerce 0 "q" tt ∅ (ex_ready (inr (VDict ex_result))))) =
    heap (ex_ready (inr (VDict ex_result))) /\
  constructed (snd (_get_relevant_documents ex_coerce 0 "q" tt ∅ (ex_ready (inr (VDict ex_result)))))
    0 (ex_stub (inr (VDict ex_result))) 1 ex_params /\
  snd (_get_relevant_documents ex_coerce 0 "q" tt ∅ (ex_ready (inr (VDict ex_result)))) =
    after_search (ex_ready (inr (VDict ex_result))) (ex_stub (inr (VDict ex_result)))
      {[ "text" := VStr "q" ]} ex_params.
Proof.
  apply (retrieve_keeps_adapter_state (RM:=unit) ex_coerce
           (ex_ready (inr (VDict ex_result))) 0 (ex_stub (inr (VDict ex_result)))
           1 ex_params "q" tt ∅).
  split; reflexivity.
Defined.

Lemma retrieve_response_without_data_witness :
  _get_relevant_documents ex_coerce 0 "q" tt ∅ (ex_ready (inr (VDict ex_result_no_data))) =
    (inl (KeyError "data"),
     after_search (ex_ready (inr (VDict ex_result_no_data)))
       (ex_stub (inr (VDict ex_result_no_data))) {[ "text" := VStr "q" ]} ex_params).
Proof.
  apply (retrieve_response_without_data (RM:=unit) ex_coerce
           (ex_ready (inr (VDict ex_result_no_data))) 0
           (ex_stub (inr (VDict ex_result_no_data))) 1 ex_params "q" tt ∅
           ex_result_no_data 1).
  - split; reflexivity.
  - reflexivity.
  - reflexivity.
Defined.

Lemma init_empty_params_as_none_witness :
  __init__ (Some ex_Metal) 0 (ex_stub (inr (VDict ex_result))) (Some 1) (ex_new ∅) =
    __init__ (Some ex_Metal) 0 (ex_stub (inr (VDict ex_result))) None (ex_new ∅) /\
  exists (st' : @state nat) l,
    __init__ (Some ex_Metal) 0 (ex_stub (inr (VDict ex_result))) None (ex_new ∅) =
      (inr tt, st') /\
    constructed st' 0 (ex_stub (inr (VDict ex_result))) l ∅ /\
    forall (rm : unit) (qs : list string),
      calls (retrieve_each ex_coerce 0 rm qs st') =
        calls st' ++ ((fun q => mkCall {[ "text" := VStr q ]} ∅) <$> qs).
Proof.
  apply (init_empty_params_as_none (RM:=unit) ex_coerce ex_Metal 0
           (ex_stub (inr (VDict ex_result))) 1 (ex_new ∅) (mkMetalRetriever None None)).
  - reflexivity.
  - reflexivity.
  - reflexivity.
Defined.

(** ** Further properties of the construction *)

Section Construction.

Context {W : Type}.

Implicit Types (st : @state W) (c : @pyobj W) (self p : loc) (kw : pydict)
  (arg : option loc).

(** [params or {}] always gives a dictionary reference, and leaves the
    instance [self] as it is. *)
Lemma or_new_dict_instance arg st self (i : MetalRetriever) :
  heap st !! self = Some (OInstance i) ->
  exists l st2,
    or_new_dict arg st = (inr l, st2) /\
    heap st2 !! self = Some (OInstance i).
Proof.
  intros Hself.
  assert (Hnew : exists l st2, new_dict st = (inr l, st2) /\
                   heap st2 !! self = Some (OInstance i)).
  { eexists _, _. split; [reflexivity|]. cbn [heap].
    rewrite lookup_insert_ne; [exact Hself|].
    intros Heq. apply (is_fresh (dom (heap st))). rewrite Heq.
    apply elem_of_dom. eauto. }
  unfold or_new_dict, bind, truthy. destruct arg as [p|]; [|exact Hnew].
  destruct (heap st !! p) as [[d|i']|].
  - destruct (bool_decide (dom d = ∅)); cbn [negb]; [exact Hnew|].
    eexists _, _. split; [reflexivity | exact Hself].
  - eexists _, _. split; [reflexivity | exact Hself].
  - eexists _, _. split; [reflexivity | exact Hself].
Qed.

Lemma init_ok (Metal : pyclass) self c arg st (i : MetalRetriever) :
  isinstance c Metal = true ->
  heap st !! self = Some (OInstance i) ->
  exists st', __init__ (Some Metal) self c arg st = (inr tt, st').
Proof.
  intros Hinst Hself. unfold __init__. rewrite Hinst. cbn [negb].
  unfold bind at 1, setattr_client. rewrite Hself.
  set (st1 := mkState _ _ _).
  destruct (or_new_dict_instance arg st1 self
              (mkMetalRetriever (Some c) (params i))) as (l & st2 & Hor & Hs2).
  { apply lookup_insert_eq. }
  unfold bind. rewrite Hor. unfold setattr_params. rewrite Hs2.
  eexists. reflexivity.
Qed.

(** X1: a construction that raises, whatever the error, leaves the whole
    state as it was: no attribute is set and no dictionary is made. *)
Theorem init_failure_keeps_state (imp : option pyclass) self c arg st (e : exn) :
  fst (__init__ imp self c arg st) = inl e ->
  snd (__init__ imp self c arg st) = st.
Proof.
  destruct imp as [Metal|]; [|reflexivity].
  destruct (isinstance c Metal) eqn:Hinst.
  - destruct (heap st !! self) as [[d|i]|] eqn:Hself.
    + unfold __init__. rewrite Hinst. cbn [negb].
      unfold bind, setattr_client. now rewrite Hself.
    + destruct (init_ok Metal self c arg st i Hinst Hself) as [st' Hok].
      rewrite Hok. discriminate.
    + unfold __init__. rewrite Hinst. cbn [negb].
      unfold bind, setattr_client. now rewrite Hself.
  - unfold __init__. rewrite Hinst. cbn [negb].
    unfold bind, format_type. now destruct (type_str (obj_class c)).
Qed.

(** X2: with the package installed, the construction on an instance
    succeeds exactly when the client is an instance of Metal, whatever is
    supplied as parameters. *)
Theorem init_succeeds_iff_instance (Metal : pyclass) self c arg st
    (i : MetalRetriever) :
  heap st !! self = Some (OInstance i) ->
  fst (__init__ (Some Metal) self c arg st) = inr tt <->
  isinstance c Metal = true.
Proof.
  intros Hself. split.
  - destruct (isinstance c Metal) eqn:Hinst; [reflexivity|].
    unfold __init__. rewrite Hinst. cbn [negb].
    unfold bind, format_type. now destruct (type_str (obj_class c)).
  - intros Hinst. destruct (init_ok Metal self c arg st i Hinst Hself) as [st' Hok].
    now rewrite Hok.
Qed.

End Construction.

(** ** Further properties of the retrieval *)

Section Retrieval.

Context {W RM : Type}.

Variable coerce_content : value -> exn + string.

Implicit Types (st : @state W) (c : @pyobj W) (self p : loc) (kw : pydict)
  (rm : RM) (q : string).

(** The loop goes through records that have a text and carries on with
    what follows them. *)
Lemma for_r_in_prefix (good : list pydict) (tl : list value) acc st :
  Forall has_text good ->
  exists docs,
    for_r_in coerce_content ((VDict <$> good) ++ tl) acc st = for_r_in coerce_content tl (acc ++ docs) st /\
    Forall2 document_of good docs.
Proof.
  intros Hgood. revert acc. induction Hgood as [|d good [t Ht] _ IH]; intros acc.
  - exists []. rewrite app_nil_r. split; [reflexivity | constructor].
  - destruct (IH (acc ++ [mkDocument t (filter (fun kv => kv.1 <> "text") d)]))
      as (docs & Hrun & Hdocs).
    exists (mkDocument t (filter (fun kv => kv.1 <> "text") d) :: docs). split.
    + rewrite fmap_cons. cbn [app].
      rewrite (for_r_in_step coerce_content d t _ _ _ Ht).
      rewrite Hrun. now rewrite <- app_assoc.
    + constructor; [now apply document_of_filter | exact Hdocs].
Qed.

(** The retrieval on a response whose "data" key holds [data]. *)
Lemma retrieve_data st self c p kw q rm kwargs (res : pydict) (w' : W)
    (data : value) :
  constructed st self c p kw ->
  obj_search c {[ "text" := VStr q ]} kw (world st) = (inr (VDict res), w') ->
  res !! "data" = Some data ->
  _get_relevant_documents coerce_content self q rm kwargs st =
    (rs <- iter data ;; for_r_in coerce_content rs [])
      (after_search st c {[ "text" := VStr q ]} kw).
Proof.
  intros Hc Hs Hdata.
  rewrite (retrieve_run coerce_content _ _ _ _ _ _ _ _ Hc), Hs. cbn [fst].
  unfold process, bind at 1, getitem. now rewrite Hdata.
Qed.

(** X3: the first element of the data that is not a mapping, after
    records that have a string for text, makes the retrieval raise
    [AttributeError]; the documents made of the records before it are
    lost, and what comes after it is not looked at. *)
Theorem retrieve_element_not_a_record st self c p kw q rm kwargs
    (res : pydict) (w' : W) (good : list pydict) (r : value) (rest : list value) :
  constructed st self c p kw ->
  obj_search c {[ "text" := VStr q ]} kw (world st) = (inr (VDict res), w') ->
  res !! "data" = Some (VList ((VDict <$> good) ++ r :: rest)) ->
  Forall has_text good ->
  (forall d, r <> VDict d) ->
  _get_relevant_documents coerce_content self q rm kwargs st =
    (inl AttributeError, after_search st c {[ "text" := VStr q ]} kw).
Proof.
  intros Hc Hs Hdata Hgood Hr.
  rewrite (retrieve_data _ _ _ _ _ _ _ _ _ _ _ Hc Hs Hdata).
  unfold bind at 1. cbn [iter ret].
  destruct (for_r_in_prefix good (r :: rest) []
              (after_search st c {[ "text" := VStr q ]} kw) Hgood) as (docs & -> & _).
  cbn [for_r_in]. unfold bind at 1.
  destruct r; try reflexivity. now destruct (Hr d).
Qed.

(** X4: the first record without a "text" key, after records that have
    a string for text, makes the retrieval raise [KeyError] for "text",
    whatever comes after it in the data, records or not. *)
Theorem retrieve_first_record_without_text st self c p kw q rm kwargs
    (res : pydict) (w' : W) (good : list pydict) (d : pydict) (rest : list value) :
  constructed st self c p kw ->
  obj_search c {[ "text" := VStr q ]} kw (world st) = (inr (VDict res), w') ->
  res !! "data" = Some (VList ((VDict <$> good) ++ VDict d :: rest)) ->
  Forall has_text good ->
  d !! "text" = None ->
  _get_relevant_documents coerce_content self q rm kwargs st =
    (inl (KeyError "text"), after_search st c {[ "text" := VStr q ]} kw).
Proof.
  intros Hc Hs Hdata Hgood Hd.
  rewrite (retrieve_data _ _ _ _ _ _ _ _ _ _ _ Hc Hs Hdata).
  unfold bind at 1. cbn [iter ret].
  destruct (for_r_in_prefix good (VDict d :: rest) []
              (after_search st c {[ "text" := VStr q ]} kw) Hgood) as (docs & -> & _).
  cbn [for_r_in]. unfold bind at 1. cbn [items ret].
  unfold bind at 1, getitem. now rewrite Hd.
Qed.

(** X5: when what the client returns is not a mapping (a list, a string,
    [None], a number), subscripting it with "data" raises [TypeError]. *)
Theorem retrieve_response_not_a_mapping st self c p kw q rm kwargs
    (v : value) (w' : W) :
  constructed st self c p kw ->
  obj_search c {[ "text" := VStr q ]} kw (world st) = (inr v, w') ->
  (forall d, v <> VDict d) ->
  _get_relevant_documents coerce_content self q rm kwargs st =
    (inl TypeError, after_search st c {[ "text" := VStr q ]} kw).
Proof.
  intros Hc Hs Hv.
  rewrite (retrieve_run coerce_content _ _ _ _ _ _ _ _ Hc), Hs. cbn [fst].
  unfold process, bind at 1.
  destruct v; try reflexivity. now destruct (Hv d).
Qed.

(** X6: when the "data" key holds [None], a boolean or a number, the loop
    cannot run over it and the retrieval raises [TypeError]. *)
Theorem retrieve_data_not_iterable st self c p kw q rm kwargs
    (res : pydict) (w' : W) (data : value) :
  constructed st self c p kw ->
  obj_search c {[ "text" := VStr q ]} kw (world st) = (inr (VDict res), w') ->
  res !! "data" = Some data ->
  is_scalar data = true ->
  _get_relevant_documents coerce_content self q rm kwargs st =
    (inl TypeError, after_search st c {[ "text" := VStr q ]} kw).
Proof.
  intros Hc Hs Hdata Hsc.
  rewrite (retrieve_data _ _ _ _ _ _ _ _ _ _ _ Hc Hs Hdata).
  unfold bind at 1. destruct data; try discriminate; reflexivity.
Qed.

(** X7: when the "data" key holds a mapping instead of a list of records,
    the loop runs over its keys, which are strings and have no items: the
    retrieval raises [AttributeError], unless the mapping is empty, in
    which case it returns no documents. *)
Theorem retrieve_data_is_mapping st self c p kw q rm kwargs
    (res : pydict) (w' : W) (d : pydict) :
  constructed st self c p kw ->
  obj_search c {[ "text" := VStr q ]} kw (world st) = (inr (VDict res), w') ->
  res !! "data" = Some (VDict d) ->
  fst (_get_relevant_documents coerce_content self q rm kwargs st) =
    if bool_decide (dom d = ∅) then inr [] else inl AttributeError.
Proof.
  intros Hc Hs Hdata.
  rewrite (retrieve_data _ _ _ _ _ _ _ _ _ _ _ Hc Hs Hdata).
  unfold bind at 1. cbn [iter ret].
  destruct (map_to_list d) as [|[k x] kvs] eqn:Hl.
  - apply map_to_list_empty_iff in Hl. subst d.
    rewrite bool_decide_eq_true_2 by apply dom_empty_L. reflexivity.
  - rewrite bool_decide_eq_false_2; [reflexivity|].
    intros Hdom. apply dom_empty_iff_L in Hdom. subst d.
    rewrite map_to_list_empty in Hl. discriminate.
Qed.

(** X8: when the "data" key holds a string, the loop runs over its
    characters, which have no items: the retrieval raises
    [AttributeError], unless the string is empty, in which case it
    returns no documents. *)
Theorem retrieve_data_is_string st self c p kw q rm kwargs
    (res : pydict) (w' : W) (s : string) :
  constructed st self c p kw ->
  obj_search c {[ "text" := VStr q ]} kw (world st) = (inr (VDict res), w') ->
  res !! "data" = Some (VStr s) ->
  fst (_get_relevant_documents coerce_content self q rm kwargs st) =
    if String.eqb s "" then inr [] else inl AttributeError.
Proof.
  intros Hc Hs Hdata.
  rewrite (retrieve_data _ _ _ _ _ _ _ _ _ _ _ Hc Hs Hdata).
  unfold bind at 1. cbn [iter ret]. destruct s; reflexivity.
Qed.

Lemma record_of_document (d : pydict) (doc : Document) :
  document_of d doc -> record_of doc = d.
Proof.
  intros [Ht Hm]. apply map_eq. intros k. unfold record_of.
  destruct (decide (k = "text")) as [->|Hk].
  - now rewrite lookup_insert_eq.
  - rewrite lookup_insert_ne by congruence. rewrite Hm.
    now rewrite decide_False by exact Hk.
Qed.

(** X9: nothing of a record whose text is a string is lost or changed
    on the way: putting the content of each returned document back into
    its metadata under "text" gives the records of the response again, in
    their order. *)
Theorem retrieve_records_round_trip st self c p kw q rm kwargs
    (res : pydict) (w' : W) (ds : list pydict) :
  constructed st self c p kw ->
  obj_search c {[ "text" := VStr q ]} kw (world st) = (inr (VDict res), w') ->
  res !! "data" = Some (VList (VDict <$> ds)) ->
  Forall has_text ds ->
  exists docs,
    fst (_get_relevant_documents coerce_content self q rm kwargs st) = inr docs /\
    record_of <$> docs = ds /\
    Forall (fun doc => metadata doc !! "text" = None) docs.
Proof.
  intros Hc Hs Hdata Hds.
  rewrite (retrieve_data _ _ _ _ _ _ _ _ _ _ _ Hc Hs Hdata).
  unfold bind at 1. cbn [iter ret].
  destruct (for_r_in_records coerce_content ds [] (after_search st c {[ "text" := VStr q ]} kw) Hds)
    as (docs & Hrun & Hdocs).
  exists docs. rewrite Hrun. split; [reflexivity|]. clear Hrun Hds Hdata.
  induction Hdocs as [|d doc ds docs Hd _ [IH1 IH2]].
  - split; [reflexivity | constructor].
  - split.
    + rewrite fmap_cons, IH1. f_equal. now apply record_of_document.
    + constructor; [|exact IH2]. destruct Hd as [_ Hm]. now rewrite Hm.
Qed.

(** X10: a retrieval on an instance whose client or parameters were never
    set, as after a construction that raised, raises [AttributeError];
    no search call is made and the state is as it was. *)
Theorem retrieve_unconstructed st self (i : MetalRetriever) q rm kwargs :
  heap st !! self = Some (OInstance i) ->
  client i = None \/ params i = None ->
  _get_relevant_documents coerce_content self q rm kwargs st = (inl AttributeError, st).
Proof.
  intros Hself Hnone.
  unfold _get_relevant_documents, bind at 1, getattr_client. rewrite Hself.
  destruct i as [[c|] [p|]]; cbn in Hnone; try reflexivity.
  - destruct Hnone; discriminate.
  - unfold bind at 1, getattr_params. rewrite Hself. reflexivity.
Qed.

(** X15: a text that is not a string is left to the validation of
    [Document]; when that raises on the first such text, after records
    that have a string for text, the retrieval raises the same error,
    whatever comes after in the data. *)
Theorem retrieve_text_rejected st self c p kw q rm kwargs
    (res : pydict) (w' : W) (good : list pydict) (d : pydict) (v : value)
    (e : exn) (rest : list value) :
  constructed st self c p kw ->
  obj_search c {[ "text" := VStr q ]} kw (world st) = (inr (VDict res), w') ->
  res !! "data" = Some (VList ((VDict <$> good) ++ VDict d :: rest)) ->
  Forall has_text good ->
  d !! "text" = Some v ->
  (forall s, v <> VStr s) ->
  coerce_content v = inl e ->
  _get_relevant_documents coerce_content self q rm kwargs st =
    (inl e, after_search st c {[ "text" := VStr q ]} kw).
Proof.
  intros Hc Hs Hdata Hgood Hd Hv He.
  rewrite (retrieve_data _ _ _ _ _ _ _ _ _ _ _ Hc Hs Hdata).
  unfold bind at 1. cbn [iter ret].
  destruct (for_r_in_prefix good (VDict d :: rest) []
              (after_search st c {[ "text" := VStr q ]} kw) Hgood) as (docs & -> & _).
  cbn [for_r_in]. unfold bind at 1. cbn [items ret].
  unfold bind at 1, getitem. rewrite Hd. cbn [ret].
  unfold bind at 1, new_Document.
  destruct v; rewrite ?He; try reflexivity. now destruct (Hv s).
Qed.

End Retrieval.

(** ** Construction and retrievals together *)

Section Lifetime.

Context {W RM : Type}.

Variable coerce_content : value -> exn + string.

Implicit Types (st : @state W) (c : @pyobj W) (self p : loc) (kw : pydict)
  (rm : RM) (q : string).

(** After a construction on supplied parameters that hold [kw], the
    retriever is constructed on a dictionary that holds [kw]. *)
Lemma init_constructs (Metal : pyclass) self c (arg : option loc) st
    (i : MetalRetriever) kw :
  isinstance c Metal = true ->
  heap st !! self = Some (OInstance i) ->
  supplied st arg kw ->
  exists st1 l,
    __init__ (Some Metal) self c arg st = (inr tt, st1) /\
    constructed st1 self c l kw /\
    world st1 = world st /\ calls st1 = calls st.
Proof.
  intros Hinst Hself Hsup.
  destruct (decide (dom kw = ∅)) as [Hd|Hd].
  - apply dom_empty_iff_L in Hd. subst kw.
    assert (Hnew : arg = None \/ exists p, arg = Some p /\ heap st !! p = Some (ODict ∅)).
    { destruct arg as [p|]; [right; eauto | left; reflexivity]. }
    destruct (init_heap_new_spec (heap st) self c i Hself) as (l & _ & Hs & Hl & _).
    eexists _, l. split; [exact (init_run_new Metal self c arg st i Hinst Hself Hnew)|].
    split; [split; assumption|]. split; reflexivity.
  - destruct arg as [p|]; cbn in Hsup; [|subst kw; now destruct Hd; apply dom_empty_L].
    assert (Hne : kw <> ∅) by (intros ->; apply Hd, dom_empty_L).
    eexists _, p. split; [exact (init_run_ref Metal self c p kw st i Hinst Hself Hsup Hne)|].
    split; [|split; reflexivity]. split; cbn [heap].
    + apply lookup_insert_eq.
    + rewrite lookup_insert_ne by congruence. exact Hsup.
Qed.

(** X11: a retrieval right after the construction calls the search with
    the mapping {"text": query} and, as keyword arguments, what the
    supplied parameters hold, which is nothing when none were supplied. *)
Theorem init_then_retrieve (Metal : pyclass) self c (arg : option loc) st
    (i : MetalRetriever) kw q rm kwargs :
  isinstance c Metal = true ->
  heap st !! self = Some (OInstance i) ->
  supplied st arg kw ->
  exists st1,
    __init__ (Some Metal) self c arg st = (inr tt, st1) /\
    calls (snd (_get_relevant_documents coerce_content self q rm kwargs st1)) =
      calls st ++ [mkCall {[ "text" := VStr q ]} kw] /\
    world (snd (_get_relevant_documents coerce_content self q rm kwargs st1)) =
      snd (obj_search c {[ "text" := VStr q ]} kw (world st)).
Proof.
  intros Hinst Hself Hsup.
  destruct (init_constructs Metal self c arg st i kw Hinst Hself Hsup)
    as (st1 & l & Hinit & Hc & Hw & Hcalls).
  exists st1. split; [exact Hinit|].
  rewrite (retrieve_state coerce_content _ _ _ _ _ _ _ _ Hc). cbn [calls world after_search].
  now rewrite Hw, Hcalls.
Qed.

(** X12: the retriever constructed on a dictionary that is not empty
    shares it with the caller: a key the caller sets in it afterwards is
    among the keyword arguments of the next search call. *)
Theorem caller_change_reaches_search (Metal : pyclass) self c p (d : pydict) st
    (i : MetalRetriever) (k : string) (v : value) q rm kwargs :
  isinstance c Metal = true ->
  heap st !! self = Some (OInstance i) ->
  heap st !! p = Some (ODict d) ->
  d <> ∅ ->
  calls (snd (_get_relevant_documents coerce_content self q rm kwargs
           (snd (caller_setitem p k v
              (snd (__init__ (Some Metal) self c (Some p) st)))))) =
    calls st ++ [mkCall {[ "text" := VStr q ]} (<[k := v]> d)].
Proof.
  intros Hinst Hself Hp Hd.
  rewrite (init_run_ref Metal self c p d st i Hinst Hself Hp Hd). cbn [snd].
  assert (Hps : p <> self) by congruence.
  unfold caller_setitem. cbn [heap world calls].
  rewrite lookup_insert_ne by congruence. rewrite Hp. cbn [snd].
  rewrite (retrieve_state coerce_content _ self c p (<[k := v]> d)); [reflexivity|].
  split; cbn [heap].
  - rewrite lookup_insert_ne by exact Hps. apply lookup_insert_eq.
  - apply lookup_insert_eq.
Qed.

(** X13: the retriever constructed on an empty dictionary does not share
    it with the caller: a key the caller sets in it afterwards is not
    passed on, and the next search call still has no keyword
    arguments. *)
Theorem caller_change_after_empty_params (Metal : pyclass) self c p st
    (i : MetalRetriever) (k : string) (v : value) q rm kwargs :
  isinstance c Metal = true ->
  heap st !! self = Some (OInstance i) ->
  heap st !! p = Some (ODict ∅) ->
  calls (snd (_get_relevant_documents coerce_content self q rm kwargs
           (snd (caller_setitem p k v
              (snd (__init__ (Some Metal) self c (Some p) st)))))) =
    calls st ++ [mkCall {[ "text" := VStr q ]} ∅].
Proof.
  intros Hinst Hself Hp.
  rewrite (init_run_new Metal self c (Some p) st i Hinst Hself) by eauto. cbn [snd].
  destruct (init_heap_new_spec (heap st) self c i Hself) as (l & Hl & Hs & Hlk & Hother).
  assert (Hps : p <> self) by congruence.
  assert (Hpd : p ∈ dom (heap st)) by (apply elem_of_dom; eauto).
  assert (Hlp : l <> p) by (intros ->; contradiction).
  unfold caller_setitem. cbn [heap world calls].
  rewrite (Hother p Hps Hpd), Hp. cbn [snd].
  rewrite (retrieve_state coerce_content _ self c l ∅); [reflexivity|].
  split; cbn [heap].
  - rewrite lookup_insert_ne by exact Hps. exact Hs.
  - rewrite lookup_insert_ne by congruence. exact Hlk.
Qed.

(** X14: however many retrievals are run on a constructed retriever, and
    whatever each returns or raises, the store stays as it was, the
    retriever stays constructed on the same client and parameters, and
    the log grows by one search call for each query, in order, all with
    the stored parameters. *)
Theorem retrieve_each_keeps_retriever self c p kw rm (qs : list string) st :
  constructed st self c p kw ->
  heap (retrieve_each coerce_content self rm qs st) = heap st /\
  constructed (retrieve_each coerce_content self rm qs st) self c p kw /\
  calls (retrieve_each coerce_content self rm qs st) =
    calls st ++ ((fun q => mkCall {[ "text" := VStr q ]} kw) <$> qs).
Proof.
  intros Hc.
  assert (Hheap : heap (retrieve_each coerce_content self rm qs st) = heap st).
  { revert st Hc. induction qs as [|q qs IH]; intros st Hc; [reflexivity|].
    unfold retrieve_each in *. cbn [foldl].
    rewrite (retrieve_state coerce_content _ _ _ _ _ _ _ _ Hc).
    now rewrite IH by exact Hc. }
  split; [exact Hheap|]. split.
  - unfold constructed. rewrite Hheap. exact Hc.
  - now apply (retrieve_each_calls coerce_content self c p kw).
Qed.

End Lifetime.

(** ** The further properties at concrete inputs *)

Lemma init_failure_keeps_state_witness :
  snd (__init__ (Some ex_Metal) 0 ex_five (Some 1) (ex_new ex_params)) =
    ex_new ex_params.
Proof.
  apply (init_failure_keeps_state (Some ex_Metal) 0 ex_five (Some 1) (ex_new ex_params)
           (ValueError ("Got unexpected client, should be of type metal_sdk.metal.Metal. "
                        +:+ "Instead, got <class 'int'>"))).
  reflexivity.
Defined.

Lemma init_succeeds_iff_instance_witness :
  fst (__init__ (Some ex_Metal) 0 (ex_stub (inr VNone)) (Some 1) (ex_new ex_params)) =
    inr tt <->
  isinstance (ex_stub (inr VNone)) ex_Metal = true.
Proof.
  apply (init_succeeds_iff_instance ex_Metal 0 (ex_stub (inr VNone)) (Some 1)
           (ex_new ex_params) (mkMetalRetriever None None)).
  reflexivity.
Defined.

Lemma retrieve_element_not_a_record_witness :
  _get_relevant_documents ex_coerce 0 "q" tt ∅
    (ex_ready (inr (VDict {[ "data" := VList [VDict ex_record_a; VStr "b"; VNone] ]}))) =
    (inl AttributeError,
     after_search
       (ex_ready (inr (VDict {[ "data" := VList [VDict ex_record_a; VStr "b"; VNone] ]})))
       (ex_stub (inr (VDict {[ "data" := VList [VDict ex_record_a; VStr "b"; VNone] ]})))
       {[ "text" := VStr "q" ]} ex_params).
Proof.
  apply (retrieve_element_not_a_record (RM:=unit) ex_coerce _ 0 _ 1 ex_params "q" tt ∅
           {[ "data" := VList [VDict ex_record_a; VStr "b"; VNone] ]} 1
           [ex_record_a] (VStr "b") [VNone]).
  - split; reflexivity.
  - reflexivity.
  - reflexivity.
  - repeat constructor; eexists; vm_compute; reflexivity.
  - intros d. discriminate.
Defined.

Lemma retrieve_first_record_without_text_witness :
  _get_relevant_documents ex_coerce 0 "q" tt ∅
    (ex_ready (inr (VDict {[ "data" :=
       VList [VDict ex_record_a; VDict ex_record_no_text; VInt 3] ]}))) =
    (inl (KeyError "text"),
     after_search
       (ex_ready (inr (VDict {[ "data" :=
          VList [VDict ex_record_a; VDict ex_record_no_text; VInt 3] ]})))
       (ex_stub (inr (VDict {[ "data" :=
          VList [VDict ex_record_a; VDict ex_record_no_text; VInt 3] ]})))
       {[ "text" := VStr "q" ]} ex_params).
Proof.
  apply (retrieve_first_record_without_text (RM:=unit) ex_coerce _ 0 _ 1 ex_params "q" tt ∅
           {[ "data" := VList [VDict ex_record_a; VDict ex_record_no_text; VInt 3] ]} 1
           [ex_record_a] ex_record_no_text [VInt 3]).
  - split; reflexivity.
  - reflexivity.
  - reflexivity.
  - repeat constructor; eexists; vm_compute; reflexivity.
  - reflexivity.
Defined.

Lemma retrieve_response_not_a_mapping_witness :
  _get_relevant_documents ex_coerce 0 "q" tt ∅ (ex_ready (inr (VList [VDict ex_record_a]))) =
    (inl TypeError,
     after_search (ex_ready (inr (VList [VDict ex_record_a])))
       (ex_stub (inr (VList [VDict ex_record_a]))) {[ "text" := VStr "q" ]} ex_params).
Proof.
  apply (retrieve_response_not_a_mapping (RM:=unit) ex_coerce _ 0 _ 1 ex_params "q" tt ∅
           (VList [VDict ex_record_a]) 1).
  - split; reflexivity.
  - reflexivity.
  - intros d. discriminate.
Defined.

Lemma retrieve_data_not_iterable_witness :
  _get_relevant_documents ex_coerce 0 "q" tt ∅ (ex_ready (inr (VDict {[ "data" := VNone ]}))) =
    (inl TypeError,
     after_search (ex_ready (inr (VDict {[ "data" := VNone ]})))
       (ex_stub (inr (VDict {[ "data" := VNone ]}))) {[ "text" := VStr "q" ]} ex_params).
Proof.
  apply (retrieve_data_not_iterable (RM:=unit) ex_coerce _ 0 _ 1 ex_params "q" tt ∅
           {[ "data" := VNone ]} 1 VNone).
  - split; reflexivity.
  - reflexivity.
  - reflexivity.
  - reflexivity.
Defined.

Lemma retrieve_data_is_mapping_witness :
  fst (_get_relevant_documents ex_coerce 0 "q" tt ∅
         (ex_ready (inr (VDict {[ "data" := VDict ex_record_a ]})))) =
    if bool_decide (dom ex_record_a = ∅) then inr [] else inl AttributeError.
Proof.
  apply (retrieve_data_is_mapping (RM:=unit) ex_coerce _ 0
           (ex_stub (inr (VDict {[ "data" := VDict ex_record_a ]}))) 1 ex_params "q" tt ∅
           {[ "data" := VDict ex_record_a ]} 1 ex_record_a).
  - split; reflexivity.
  - reflexivity.
  - reflexivity.
Defined.

Lemma retrieve_data_is_string_witness :
  fst (_get_relevant_documents ex_coerce 0 "q" tt ∅
         (ex_ready (inr (VDict {[ "data" := VStr "none" ]})))) =
    if String.eqb "none" "" then inr [] else inl AttributeError.
Proof.
  apply (retrieve_data_is_string (RM:=unit) ex_coerce _ 0
           (ex_stub (inr (VDict {[ "data" := VStr "none" ]}))) 1 ex_params "q" tt ∅
           {[ "data" := VStr "none" ]} 1 "none").
  - split; reflexivity.
  - reflexivity.
  - reflexivity.
Defined.

Lemma retrieve_records_round_trip_witness :
  exists docs,
    fst (_get_relevant_documents ex_coerce 0 "q" tt ∅ (ex_ready (inr (VDict ex_result)))) =
      inr docs /\
    record_of <$> docs = [ex_record_a; ex_record_b] /\
    Forall (fun doc => metadata doc !! "text" = None) docs.
Proof.
  apply (retrieve_records_round_trip (RM:=unit) ex_coerce
           (ex_ready (inr (VDict ex_result))) 0 (ex_stub (inr (VDict ex_result)))
           1 ex_params "q" tt ∅ ex_result 1 [ex_record_a; ex_record_b]).
  - split; reflexivity.
  - reflexivity.
  - reflexivity.
  - repeat constructor; eexists; vm_compute; reflexivity.
Defined.

Lemma retrieve_unconstructed_witness :
  _get_relevant_documents ex_coerce 0 "q" tt ∅ (ex_new ex_params) =
    (inl AttributeError, ex_new ex_params).
Proof.
  apply (retrieve_unconstructed (RM:=unit) ex_coerce (ex_new ex_params) 0
           (mkMetalRetriever None None) "q" tt ∅).
  - reflexivity.
  - left. reflexivity.
Defined.

Lemma init_then_retrieve_witness :
  exists st1 : @state nat,
    __init__ (Some ex_Metal) 0 (ex_stub (inr (VDict ex_result))) (Some 1)
      (ex_new ex_params) = (inr tt, st1) /\
    calls (snd (_get_relevant_documents ex_coerce 0 "q" tt ∅ st1)) =
      [] ++ [mkCall {[ "text" := VStr "q" ]} ex_params] /\
    world (snd (_get_relevant_documents ex_coerce 0 "q" tt ∅ st1)) = 1.
Proof.
  apply (init_then_retrieve (RM:=unit) ex_coerce ex_Metal 0 (ex_stub (inr (VDict ex_result)))
           (Some 1) (ex_new ex_params) (mkMetalRetriever None None) ex_params "q" tt ∅).
  - reflexivity.
  - reflexivity.
  - reflexivity.
Defined.

Lemma caller_change_reaches_search_witness :
  calls (snd (_get_relevant_documents ex_coerce 0 "q" tt ∅
           (snd (caller_setitem 1 "limit" (VInt 3)
              (snd (__init__ (Some ex_Metal) 0 (ex_stub (inr (VDict ex_result)))
                      (Some 1) (ex_new ex_params))))))) =
    [] ++ [mkCall {[ "text" := VStr "q" ]} (<[ "limit" := VInt 3 ]> ex_params)].
Proof.
  apply (caller_change_reaches_search (RM:=unit) ex_coerce ex_Metal 0
           (ex_stub (inr (VDict ex_result))) 1 ex_params (ex_new ex_params)
           (mkMetalRetriever None None) "limit" (VInt 3) "q" tt ∅).
  - reflexivity.
  - reflexivity.
  - reflexivity.
  - intros Heq. apply (f_equal (fun m : pydict => m !! "k")) in Heq.
    vm_compute in Heq. discriminate.
Defined.

Lemma caller_change_after_empty_params_witness :
  calls (snd (_get_relevant_documents ex_coerce 0 "q" tt ∅
           (snd (caller_setitem 1 "limit" (VInt 3)
              (snd (__init__ (Some ex_Metal) 0 (ex_stub (inr (VDict ex_result)))
                      (Some 1) (ex_new ∅))))))) =
    [] ++ [mkCall {[ "text" := VStr "q" ]} ∅].
Proof.
  apply (caller_change_after_empty_params (RM:=unit) ex_coerce ex_Metal 0
           (ex_stub (inr (VDict ex_result))) 1 (ex_new ∅)
           (mkMetalRetriever None None) "limit" (VInt 3) "q" tt ∅).
  - reflexivity.
  - reflexivity.
  - reflexivity.
Defined.

Lemma retrieve_each_keeps_retriever_witness :
  heap (retrieve_each ex_coerce 0 tt ["a"; "b"] (ex_ready (inr (VDict ex_result_no_data)))) =
    heap (ex_ready (inr (VDict ex_result_no_data))) /\
  constructed (retrieve_each ex_coerce 0 tt ["a"; "b"] (ex_ready (inr (VDict ex_result_no_data))))
    0 (ex_stub (inr (VDict ex_result_no_data))) 1 ex_params /\
  calls (retrieve_each ex_coerce 0 tt ["a"; "b"] (ex_ready (inr (VDict ex_result_no_data)))) =
    [] ++ ((fun q => mkCall {[ "text" := VStr q ]} ex_params) <$> ["a"; "b"]).
Proof.
  apply (retrieve_each_keeps_retriever (RM:=unit) ex_coerce 0
           (ex_stub (inr (VDict ex_result_no_data))) 1 ex_params tt ["a"; "b"]
           (ex_ready (inr (VDict ex_result_no_data)))).
  split; reflexivity.
Defined.

Lemma retrieve_text_rejected_witness :
  _get_relevant_documents ex_coerce 0 "q" tt ∅
    (ex_ready (inr (VDict {[ "data" :=
       VList [VDict ex_record_a; VDict {[ "text" := VNone ]}; VDict ex_record_b] ]}))) =
    (inl (OtherError "ValidationError" "str type expected"),
     after_search
       (ex_ready (inr (VDict {[ "data" :=
          VList [VDict ex_record_a; VDict {[ "text" := VNone ]}; VDict ex_record_b] ]})))
       (ex_stub (inr (VDict {[ "data" :=
          VList [VDict ex_record_a; VDict {[ "text" := VNone ]}; VDict ex_record_b] ]})))
       {[ "text" := VStr "q" ]} ex_params).
Proof.
  apply (retrieve_text_rejected (RM:=unit) ex_coerce _ 0 _ 1 ex_params "q" tt ∅
           {[ "data" :=
              VList [VDict ex_record_a; VDict {[ "text" := VNone ]}; VDict ex_record_b] ]}
           1 [ex_record_a] {[ "text" := VNone ]} VNone
           (OtherError "ValidationError" "str type expected") [VDict ex_record_b]).
  - split; reflexivity.
  - reflexivity.
  - reflexivity.
  - repeat constructor; eexists; vm_compute; reflexivity.
  - reflexivity.
  - intros s. discriminate.
  - reflexivity.
Defined.
